(** * MarkerBasedPredictor: label extraction from marked model output

    A verification development for
    [src/promptolution/predictors/maker_based_predictor.py].

    Conventions of the embedding.
    - A Python [str] is a Rocq [string]; a character is the code point
      U+0000..U+00FF it denotes (the Latin-1 range).  On that range
      [str.lower] is a character-wise map and stays inside the range, so the
      tables below are the ones CPython uses, not an approximation.
    - A Python list is a Rocq [list]; [l[0]] is stdpp's [l !! 0] with the
      [IndexError] of the out-of-range case written out.
    - A call either returns or raises: type [outcome].
    - A method runs against the object [self]: it takes the object's fields
      and gives back the outcome together with the fields as they are after
      the call (type [Py]), whether it returned or raised. *)

From Stdlib Require Import NArith Ascii String.
From stdpp Require Import base option list strings.

Open Scope string_scope.

(** ** Python strings *)

Module PyStr.

Definition ord (ch : ascii) : N := N_of_ascii ch.

Definition between (lo hi n : N) : bool := ((lo <=? n) && (n <=? hi))%N.

(** Unicode property Uppercase on U+0000..U+00FF: A-Z, and U+00C0..U+00DE
    without the multiplication sign U+00D7. *)
Definition Py_UNICODE_ISUPPER (ch : ascii) : bool :=
  let n := ord ch in
  between 65 90 n || (between 192 222 n && negb (n =? 215)%N).

(** Unicode property Lowercase on U+0000..U+00FF: a-z, the ordinal
    indicators U+00AA and U+00BA, the micro sign U+00B5, and U+00DF..U+00FF
    without the division sign U+00F7. *)
Definition Py_UNICODE_ISLOWER (ch : ascii) : bool :=
  let n := ord ch in
  between 97 122 n || (n =? 170)%N || (n =? 181)%N || (n =? 186)%N
  || (between 223 255 n && negb (n =? 247)%N).

(** No code point below U+0100 is title case. *)
Definition Py_UNICODE_ISTITLE (ch : ascii) : bool := false.

(** [str.isspace] for one character: the characters [str.strip] removes. *)
Definition Py_UNICODE_ISSPACE (ch : ascii) : bool :=
  let n := ord ch in
  between 9 13 n || between 28 32 n || (n =? 133)%N || (n =? 160)%N.

(** Lowercase mapping: every uppercase code point of the range maps to the
    code point 32 above it, every other one to itself. *)
Definition Py_UNICODE_TOLOWER (ch : ascii) : ascii :=
  if Py_UNICODE_ISUPPER ch then ascii_of_N (ord ch + 32) else ch.

(** [str.lower()]. *)
Fixpoint lower (s : string) : string :=
  match s with
  | EmptyString => EmptyString
  | String ch s' => String (Py_UNICODE_TOLOWER ch) (lower s')
  end.

(** The scan of [str.islower()]: an uppercase or title-case character
    answers [False] at once, a lowercase one sets [cased], and the answer at
    the end of the string is [cased]. *)
Fixpoint islower_scan (s : string) (cased : bool) : bool :=
  match s with
  | EmptyString => cased
  | String ch s' =>
      if Py_UNICODE_ISUPPER ch || Py_UNICODE_ISTITLE ch then false
      else islower_scan s' (cased || Py_UNICODE_ISLOWER ch)
  end.

(** [str.islower()]: at least one cased character and no uppercase one. *)
Definition islower (s : string) : bool := islower_scan s false.

(** A character is cased when it is uppercase, lowercase or title case. *)
Definition cased (ch : ascii) : bool :=
  Py_UNICODE_ISUPPER ch || Py_UNICODE_ISLOWER ch || Py_UNICODE_ISTITLE ch.

(** The string has no cased character at all ("123", "42", ""). *)
Fixpoint uncased (s : string) : bool :=
  match s with
  | EmptyString => true
  | String ch s' => negb (cased ch) && uncased s'
  end.

(** The string has no uppercase character. *)
Fixpoint no_upper (s : string) : bool :=
  match s with
  | EmptyString => true
  | String ch s' => negb (Py_UNICODE_ISUPPER ch) && no_upper s'
  end.

(** Every character of the string is white space. *)
Fixpoint isspace_all (s : string) : bool :=
  match s with
  | EmptyString => true
  | String ch s' => Py_UNICODE_ISSPACE ch && isspace_all s'
  end.

(** [sep.join(l)]. *)
Definition join (sep : string) (l : list string) : string :=
  String.concat sep l.

(** [x in l] for a list of strings: some element is [==] to [x]. *)
Definition contains (l : list string) (x : string) : bool :=
  existsb (String.eqb x) l.

End PyStr.

(** ** Outcomes of a call *)

Inductive exn : Type :=
| AssertionError (msg : string)
| IndexError (msg : string)
| Exception (name msg : string).

Inductive outcome (A : Type) : Type :=
| Return (a : A)
| Raise (e : exn).

Arguments Return {A} a.
Arguments Raise {A} e.

(** [l[i]] on a Python list. *)
Definition getitem {A : Type} (l : list A) (i : nat) : outcome A :=
  match l !! i with
  | Some x => Return x
  | None => Raise (IndexError "list index out of range")
  end.

(** [all(l)] on a list of booleans. *)
Definition all (l : list bool) : bool := forallb id l.

(** ** The tag-extraction primitive

    [promptolution.utils.formatting.extract_from_tag] is imported by the
    predictor from another module of the library.  The predictor is modelled
    over an arbitrary primitive (a parameter of the model below); the
    function here is one such primitive, used where a concrete one is
    needed. *)

(** Modelled from the spec: the body of [extract_from_tag] is missing.  Spec
    4.2, step 1: "return the text strictly between the first occurrence of
    begin_marker and the first subsequent occurrence of end_marker; return an
    empty string (never fail) if either marker is absent". *)
Definition spec_extract_from_tag (text start_tag end_tag : string) : string :=
  match String.index 0 start_tag text with
  | None => ""
  | Some i =>
      let from := i + String.length start_tag in
      let rest := String.substring from (String.length text - from) text in
      match String.index 0 end_tag rest with
      | None => ""
      | Some j => String.substring 0 j rest
      end
  end.

(** The same primitive as a call that always returns. *)
Definition spec_primitive (text start_tag end_tag : string) : outcome string :=
  Return (spec_extract_from_tag text start_tag end_tag).

(** ** The predictor *)

Section Model.

(** The language model handle; the predictor only stores it. *)
Context {BaseLLM : Type}.

(** The attributes of a [MarkerBasedPredictor] object.  [classes] is
    [Optional[List[str]]]. *)
Record MarkerBasedPredictor : Type := {
  llm : BaseLLM;
  classes : option (list string);
  begin_marker : string;
  end_marker : string;
  extraction_description : string
}.

(** Modelled from the spec: [ExperimentConfig] is missing.  Spec 6: "an
    optional externally-constructed settings bundle that may override
    defaults at construction time; its schema is out of scope": any update
    of the object under construction, which may itself raise. *)
Record ExperimentConfig : Type := {
  apply_to : MarkerBasedPredictor -> outcome MarkerBasedPredictor
}.

(** Modelled from the spec: [BasePredictor.__init__] is missing.  It keeps
    the language model and lets the configuration, when there is one,
    override attributes. *)
Definition BasePredictor__init__
    (self : MarkerBasedPredictor) (llm : BaseLLM)
    (config : option ExperimentConfig)
  : outcome MarkerBasedPredictor :=
  let self :=
    {| llm := llm; classes := classes self;
       begin_marker := begin_marker self; end_marker := end_marker self;
       extraction_description := extraction_description self |} in
  match config with
  | Some cfg => apply_to cfg self
  | None => Return self
  end.

Definition default_begin_marker : string := "<final_answer>".
Definition default_end_marker : string := "</final_answer>".

(** [MarkerBasedPredictor.__init__] (lines 28-59).  The object is returned
    when construction completes and the exception when it does not. *)
Definition __init__
    (llm : BaseLLM) (classes : option (list string))
    (begin_marker end_marker : string) (config : option ExperimentConfig)
  : outcome MarkerBasedPredictor :=
  match classes with
  | Some cs =>
      if all (map PyStr.islower cs) then
        let extraction_description :=
          "The task is to classify the texts into one of those classes: "
          +:+ PyStr.join ", " cs +:+ "."
          +:+ "The class label is extracted from the text that are between these markers: "
          +:+ begin_marker +:+ " and " +:+ end_marker +:+ "." in
        BasePredictor__init__
          {| llm := llm; classes := classes;
             begin_marker := begin_marker; end_marker := end_marker;
             extraction_description := extraction_description |}
          llm config
      else Raise (AssertionError "Class labels should be lowercase.")
  | None =>
      let extraction_description :=
        "The class label is extracted from the text that are between these markers: "
        +:+ begin_marker +:+ " and " +:+ end_marker +:+ "." in
      BasePredictor__init__
        {| llm := llm; classes := classes;
           begin_marker := begin_marker; end_marker := end_marker;
           extraction_description := extraction_description |}
        llm config
  end.

(** *** Methods: computations against [self] *)

Definition Py (A : Type) : Type :=
  MarkerBasedPredictor -> outcome A * MarkerBasedPredictor.

Definition ret {A : Type} (a : A) : Py A := fun self => (Return a, self).

Definition bind {A B : Type} (m : Py A) (k : A -> Py B) : Py B :=
  fun self =>
    match m self with
    | (Return a, self') => k a self'
    | (Raise e, self') => (Raise e, self')
    end.

(** Reading an attribute, [self.f]. *)
Definition attr {A : Type} (f : MarkerBasedPredictor -> A) : Py A :=
  fun self => (Return (f self), self).

(** Calling code that does not see [self]. *)
Definition call {A : Type} (o : outcome A) : Py A := fun self => (o, self).

Notation "x <- m ;; k" := (bind m (fun x => k))
  (at level 100, m at next level, right associativity).

(** The primitive imported at line 6; it may raise. *)
Variable extract_from_tag : string -> string -> string -> outcome string.

(** Lines 69 ([.lower()]) to 71: lowercase, then fall back to the first
    class when a class list is set and the value is not in it.  Within one
    iteration [self.classes] is read three times; nothing runs in between,
    so it is read once here. *)
Definition normalize (pred : string) : Py string :=
  let pred := PyStr.lower pred in
  self_classes <- attr classes ;;
  match self_classes with
  | Some cs =>
      if negb (PyStr.contains cs pred) then call (getitem cs 0) else ret pred
  | None => ret pred
  end.

(** One iteration of the loop, up to the value that is appended. *)
Definition loop_body (pred : string) : Py string :=
  self_begin_marker <- attr begin_marker ;;
  self_end_marker <- attr end_marker ;;
  extracted <- call (extract_from_tag pred self_begin_marker self_end_marker) ;;
  normalize extracted.

(** [for pred in preds: ...; result.append(pred)] followed by
    [return result]. *)
Fixpoint for_pred_in (preds : list string) (result : list string)
  : Py (list string) :=
  match preds with
  | [] => ret result
  | pred :: preds' =>
      pred <- loop_body pred ;;
      for_pred_in preds' (result ++ [pred])
  end.

(** [MarkerBasedPredictor._extract_preds] (lines 61-75). *)
Definition _extract_preds (preds : list string) : Py (list string) :=
  for_pred_in preds [].

(** The returned value, or exception, of a method run on [self]. *)
Definition result_of {A : Type} (m : Py A) (self : MarkerBasedPredictor)
  : outcome A := fst (m self).

(** The object after a method ran on [self]. *)
Definition state_after {A : Type} (m : Py A) (self : MarkerBasedPredictor)
  : MarkerBasedPredictor := snd (m self).

End Model.

Arguments MarkerBasedPredictor : clear implicits.
Arguments ExperimentConfig : clear implicits.

(** ** Vocabulary of the specification *)

(** The primitive never raises. *)
Definition total (primitive : string -> string -> string -> outcome string)
  : Prop :=
  forall text start_tag end_tag,
    exists extracted, primitive text start_tag end_tag = Return extracted.

(** The primitive does not raise on the items of one batch, for the markers
    of one predictor. *)
Definition total_on {BaseLLM : Type}
    (primitive : string -> string -> string -> outcome string)
    (self : MarkerBasedPredictor BaseLLM) (preds : list string) : Prop :=
  forall raw, raw ∈ preds ->
    exists extracted,
      primitive raw (begin_marker self) (end_marker self) = Return extracted.

(** A valid configuration: no class list, or a non-empty one whose entries are
    all lowercase. *)
Definition validly_configured (cs : option (list string)) : Prop :=
  match cs with
  | None => True
  | Some l => l <> [] /\ Forall (fun c => PyStr.islower c = true) l
  end.

(** The label the specification gives to an extracted substring (4.2, steps 2
    and 3): the lowercased substring when it is a member of the class list or
    when there is no class list, and the first class otherwise. *)
Definition specified_label
    (cs : option (list string)) (extracted label : string) : Prop :=
  let lowered := PyStr.lower extracted in
  match cs with
  | Some l => (lowered ∈ l -> label = lowered)
              /\ (lowered ∉ l -> l !! 0 = Some label)
  | None => label = lowered
  end.

(** The label a failed extraction (an empty substring) degrades to: the first
    class in closed mode, the empty string in open mode. *)
Definition degraded_label (cs : option (list string)) (label : string) : Prop :=
  match cs with
  | Some l => l !! 0 = Some label
  | None => label = ""
  end.

(** [str.lstrip()], [str.rstrip()] and [str.strip()]. *)
Fixpoint lstrip (s : string) : string :=
  match s with
  | EmptyString => EmptyString
  | String ch s' => if PyStr.Py_UNICODE_ISSPACE ch then lstrip s' else s
  end.

Fixpoint rstrip (s : string) : string :=
  match s with
  | EmptyString => EmptyString
  | String ch s' =>
      match rstrip s' with
      | EmptyString =>
          if PyStr.Py_UNICODE_ISSPACE ch then EmptyString
          else String ch EmptyString
      | kept => String ch kept
      end
  end.

Definition strip (s : string) : string := rstrip (lstrip s).

(** Two different strings that become equal once leading and trailing white
    space is removed. *)
Definition differs_by_outer_whitespace (s c : string) : Prop :=
  s <> c /\ strip s = strip c.

(** ** Objects used in the examples *)

Definition sentiment_classes : list string := ["negative"; "positive"].

(** What [MarkerBasedPredictor(llm, classes=["negative", "positive"])]
    builds. *)
Definition sentiment : MarkerBasedPredictor unit :=
  {| llm := tt;
     classes := Some sentiment_classes;
     begin_marker := "<final_answer>";
     end_marker := "</final_answer>";
     extraction_description :=
       "The task is to classify the texts into one of those classes: negative, positive.The class label is extracted from the text that are between these markers: <final_answer> and </final_answer>." |}.

(** What [MarkerBasedPredictor(llm)] builds: open mode. *)
Definition open_mode : MarkerBasedPredictor unit :=
  {| llm := tt;
     classes := None;
     begin_marker := "<final_answer>";
     end_marker := "</final_answer>";
     extraction_description :=
       "The class label is extracted from the text that are between these markers: <final_answer> and </final_answer>." |}.

(** What [MarkerBasedPredictor(llm, classes=[])] builds. *)
Definition no_class : MarkerBasedPredictor unit :=
  {| llm := tt;
     classes := Some [];
     begin_marker := "<final_answer>";
     end_marker := "</final_answer>";
     extraction_description :=
       "The task is to classify the texts into one of those classes: .The class label is extracted from the text that are between these markers: <final_answer> and </final_answer>." |}.

(** A class list in which one label is another one with white space around
    it; every entry passes [islower]. *)
Definition padded_classes : list string :=
  ["negative"; " positive "; "positive"].

Definition padded : MarkerBasedPredictor unit :=
  {| llm := tt;
     classes := Some padded_classes;
     begin_marker := "<final_answer>";
     end_marker := "</final_answer>";
     extraction_description :=
       "The task is to classify the texts into one of those classes: negative,  positive , positive.The class label is extracted from the text that are between these markers: <final_answer> and </final_answer>." |}.

(** The batch of the specification's batch example. *)
Definition spec_batch : list string :=
  ["<final_answer>Positive</final_answer>"; "garbage";
   "<final_answer>NEGATIVE</final_answer>"].

(** ** The loop seen item by item *)

(** What one iteration appends for the item [raw], or the exception it
    raises, when run on [self]. *)
Definition item_label {BaseLLM : Type}
    (primitive : string -> string -> string -> outcome string)
    (self : MarkerBasedPredictor BaseLLM) (raw : string) : outcome string :=
  result_of (loop_body primitive raw) self.

(** The values of [f] along a list, up to the first exception. *)
Fixpoint collect {A B : Type} (f : A -> outcome B) (l : list A)
  : outcome (list B) :=
  match l with
  | [] => Return []
  | x :: l' =>
      match f x with
      | Return y =>
          match collect f l' with
          | Return ys => Return (y :: ys)
          | Raise e => Raise e
          end
      | Raise e => Raise e
      end
  end.

(** The object after a series of calls of [_extract_preds], one per batch. *)
Fixpoint after_calls {BaseLLM : Type}
    (primitive : string -> string -> string -> outcome string)
    (batches : list (list string)) (self : MarkerBasedPredictor BaseLLM)
  : MarkerBasedPredictor BaseLLM :=
  match batches with
  | [] => self
  | preds :: batches' =>
      after_calls primitive batches'
        (state_after (_extract_preds primitive preds) self)
  end.

(** The item at position [i] of the batch got the first class as its
    label. *)
Definition falls_back_at {BaseLLM : Type}
    (primitive : string -> string -> string -> outcome string)
    (self : MarkerBasedPredictor BaseLLM) (preds : list string) (i : nat)
  : Prop :=
  exists cs fallback out,
    classes self = Some cs /\ cs !! 0 = Some fallback
    /\ result_of (_extract_preds primitive preds) self = Return out
    /\ out !! i = Some fallback.

(** The reading of "a value that differs from a configured class only by
    outer white space is replaced by the first class" in which nothing is
    asked of the value beyond that difference. *)
Definition whitespace_variant_always_falls_back {BaseLLM : Type}
    (primitive : string -> string -> string -> outcome string)
    (self : MarkerBasedPredictor BaseLLM) (preds : list string) (i : nat)
  : Prop :=
  forall raw extracted cs c,
    total_on primitive self preds ->
    preds !! i = Some raw ->
    classes self = Some cs ->
    primitive raw (begin_marker self) (end_marker self) = Return extracted ->
    c ∈ cs ->
    differs_by_outer_whitespace (PyStr.lower extracted) c ->
    falls_back_at primitive self preds i.

(** ** A primitive that can raise *)

(** A primitive that answers like the specified one when the begin marker
    occurs in the text and raises when it does not; it stands for an
    [extract_from_tag] that does not tolerate every input. *)
Definition strict_primitive (text start_tag end_tag : string) : outcome string :=
  match String.index 0 start_tag text with
  | Some _ => Return (spec_extract_from_tag text start_tag end_tag)
  | None => Raise (Exception "ValueError" "marker not found")
  end.


(** An object with the class list and the markers of [sentiment] and another
    description. *)
Definition sentiment_undescribed : MarkerBasedPredictor unit :=
  {| llm := tt;
     classes := Some sentiment_classes;
     begin_marker := "<final_answer>";
     end_marker := "</final_answer>";
     extraction_description := "" |}.

(** A batch of two answers that differ in case only. *)
Definition case_batch : list string :=
  ["<final_answer>Positive</final_answer>";
   "<final_answer>POSITIVE</final_answer>"].

(** * Properties *)

(** ** The examples of the specification, run on the model *)

Example init_sentiment :
  __init__ tt (Some sentiment_classes) default_begin_marker default_end_marker
    None = Return sentiment.
Proof. reflexivity. Qed.

Example init_open_mode :
  __init__ tt None default_begin_marker default_end_marker None
  = Return open_mode.
Proof. reflexivity. Qed.

Example spec_example_closed :
  result_of (_extract_preds spec_primitive
               ["I think this is <final_answer>Positive</final_answer> overall."])
            sentiment
  = Return ["positive"].
Proof. reflexivity. Qed.

Example spec_example_fallback :
  result_of (_extract_preds spec_primitive ["<final_answer>maybe</final_answer>"])
            sentiment
  = Return ["negative"].
Proof. reflexivity. Qed.

Example spec_example_missing_marker :
  result_of (_extract_preds spec_primitive ["no markers here"]) sentiment
  = Return ["negative"].
Proof. reflexivity. Qed.

Example spec_example_open :
  result_of (_extract_preds spec_primitive ["<final_answer>Cat</final_answer>"])
            open_mode
  = Return ["cat"].
Proof. reflexivity. Qed.

Example spec_example_batch :
  result_of (_extract_preds spec_primitive spec_batch) sentiment
  = Return ["positive"; "negative"; "negative"].
Proof. reflexivity. Qed.

Example strip_padded : strip " positive " = "positive".
Proof. reflexivity. Qed.

(** ** Facts about [lower], [islower] and list membership *)

Section PyStrFacts.

Import PyStr.

Lemma tolower_fixes_non_upper (ch : ascii) :
  Py_UNICODE_ISUPPER ch = false -> Py_UNICODE_TOLOWER ch = ch.
Proof. unfold Py_UNICODE_TOLOWER. intros ->. reflexivity. Qed.

(** The image of the lowercase mapping holds no uppercase character. *)
Lemma tolower_not_upper (ch : ascii) :
  Py_UNICODE_ISUPPER (Py_UNICODE_TOLOWER ch) = false.
Proof.
  destruct ch as [[] [] [] [] [] [] [] []]; vm_compute; reflexivity.
Qed.

Lemma upper_lower_disjoint (ch : ascii) :
  Py_UNICODE_ISUPPER ch = true -> Py_UNICODE_ISLOWER ch = false.
Proof.
  destruct ch as [[] [] [] [] [] [] [] []]; vm_compute; congruence.
Qed.

Lemma no_upper_lower (s : string) : no_upper s = true -> lower s = s.
Proof.
  induction s as [|ch s IH]; simpl; [reflexivity|].
  intros [Hch Hs]%andb_prop.
  apply negb_true_iff in Hch.
  rewrite (tolower_fixes_non_upper _ Hch), (IH Hs). reflexivity.
Qed.

Lemma lower_no_upper (s : string) : no_upper (lower s) = true.
Proof.
  induction s as [|ch s IH]; simpl; [reflexivity|].
  rewrite tolower_not_upper, IH. reflexivity.
Qed.

Lemma lower_idempotent (s : string) : lower (lower s) = lower s.
Proof. apply no_upper_lower, lower_no_upper. Qed.

Lemma islower_scan_no_upper (s : string) (seen : bool) :
  islower_scan s seen = true -> no_upper s = true.
Proof.
  revert seen. induction s as [|ch s IH]; intros seen; simpl; [reflexivity|].
  unfold Py_UNICODE_ISTITLE. rewrite orb_false_r.
  destruct (Py_UNICODE_ISUPPER ch); [discriminate|].
  intros H. simpl. exact (IH _ H).
Qed.

(** A string that passes [islower] has no uppercase character. *)
Lemma islower_no_upper (s : string) : islower s = true -> no_upper s = true.
Proof. apply islower_scan_no_upper. Qed.

(** A string that passes [islower] is a fixed point of [lower]. *)
Lemma islower_lower (s : string) : islower s = true -> lower s = s.
Proof. intros H. apply no_upper_lower, islower_no_upper, H. Qed.

Lemma islower_scan_uncased (s : string) (seen : bool) :
  uncased s = true -> islower_scan s seen = seen.
Proof.
  revert seen. induction s as [|ch s IH]; intros seen; simpl; [reflexivity|].
  intros [Hch Hs]%andb_prop.
  apply negb_true_iff in Hch. unfold cased in Hch.
  apply orb_false_elim in Hch as [Hch Ht].
  apply orb_false_elim in Hch as [Hu Hl].
  rewrite Hu, Ht, Hl. simpl. rewrite orb_false_r. apply IH, Hs.
Qed.

(** A string without any cased character does not pass [islower]. *)
Lemma uncased_not_islower (s : string) :
  uncased s = true -> islower s = false.
Proof. apply islower_scan_uncased. Qed.

Lemma uncased_no_upper (s : string) : uncased s = true -> no_upper s = true.
Proof.
  induction s as [|ch s IH]; simpl; [reflexivity|].
  intros [Hch Hs]%andb_prop. rewrite (IH Hs), andb_true_r.
  apply negb_true_iff in Hch. unfold cased in Hch.
  apply orb_false_elim in Hch as [Hch _].
  apply orb_false_elim in Hch as [-> _]. reflexivity.
Qed.

(** [x in l] holds exactly when some element of [l] is equal to [x]. *)
Lemma contains_elem_of (l : list string) (x : string) :
  contains l x = true <-> x ∈ l.
Proof.
  unfold contains. rewrite existsb_exists. split.
  - intros (y & Hy & Heq). apply String.eqb_eq in Heq. subst y.
    apply list_elem_of_In, Hy.
  - intros Hin. exists x. split; [apply list_elem_of_In, Hin|].
    apply String.eqb_refl.
Qed.

Lemma not_contains_not_elem_of (l : list string) (x : string) :
  contains l x = false <-> x ∉ l.
Proof.
  rewrite <- contains_elem_of.
  destruct (contains l x); split; try discriminate; try reflexivity.
  intros H. exfalso. apply H. reflexivity.
Qed.

(** The assertion of line 50 passes exactly when every entry passes
    [islower]. *)
Lemma all_islower_Forall (cs : list string) :
  all (map islower cs) = true <-> Forall (fun c => islower c = true) cs.
Proof.
  unfold all. induction cs as [|c cs IH]; simpl.
  - split; [constructor | reflexivity].
  - rewrite andb_true_iff, IH, Forall_cons. reflexivity.
Qed.

Lemma all_islower_false (cs : list string) (c : string) :
  c ∈ cs -> islower c = false -> all (map islower cs) = false.
Proof.
  intros Hin Hc. apply not_true_is_false. intros Hall.
  apply all_islower_Forall in Hall.
  rewrite Forall_forall in Hall. specialize (Hall c Hin). congruence.
Qed.

End PyStrFacts.

(** ** The loop of [_extract_preds] *)

Section Loop.

Context {BaseLLM : Type}.
Variable extract_from_tag : string -> string -> string -> outcome string.

Implicit Types (self : MarkerBasedPredictor BaseLLM).
Implicit Types (preds out : list string) (raw label : string).

Local Abbreviation extract_preds := (_extract_preds extract_from_tag).
Local Abbreviation label_of := (item_label extract_from_tag).

(** [normalize] only reads [self]. *)
Lemma normalize_frame self pred :
  state_after (normalize pred) self = self.
Proof.
  unfold state_after, normalize, bind, attr, call, ret. simpl.
  destruct (classes self) as [cs|]; [|reflexivity].
  destruct (negb _); reflexivity.
Qed.

Lemma normalize_run self pred :
  normalize pred self = (result_of (normalize pred) self, self).
Proof.
  rewrite <- (normalize_frame self pred) at 3.
  unfold result_of, state_after. destruct (normalize pred self); reflexivity.
Qed.

(** One iteration only reads [self]. *)
Lemma loop_body_run self raw :
  loop_body extract_from_tag raw self = (label_of self raw, self).
Proof.
  unfold item_label, result_of, loop_body, bind, attr, call. simpl.
  destruct (extract_from_tag raw _ _) as [extracted|e]; [|reflexivity].
  rewrite normalize_run. reflexivity.
Qed.

(** What an iteration appends, in terms of the primitive's answer. *)
Lemma label_of_unfold self raw :
  label_of self raw =
  match extract_from_tag raw (begin_marker self) (end_marker self) with
  | Return extracted => result_of (normalize extracted) self
  | Raise e => Raise e
  end.
Proof.
  unfold item_label, result_of, loop_body, bind, attr, call. simpl.
  destruct (extract_from_tag raw _ _) as [extracted|e]; reflexivity.
Qed.

Lemma normalize_result self pred :
  result_of (normalize pred) self =
  match classes self with
  | Some cs =>
      if PyStr.contains cs (PyStr.lower pred) then Return (PyStr.lower pred)
      else getitem cs 0
  | None => Return (PyStr.lower pred)
  end.
Proof.
  unfold result_of, normalize, bind, attr, call, ret. simpl.
  destruct (classes self) as [cs|]; [|reflexivity].
  destruct (PyStr.contains cs (PyStr.lower pred)); reflexivity.
Qed.

(** The loop with its accumulator: the labels are appended in order, and
    [self] is the same object afterwards. *)
Lemma for_pred_in_run self preds result :
  for_pred_in extract_from_tag preds result self =
  (match collect (label_of self) preds with
   | Return labels => Return (result ++ labels)%list
   | Raise e => Raise e
   end, self).
Proof.
  revert result. induction preds as [|raw preds IH]; intros result; simpl.
  - unfold ret. rewrite app_nil_r. reflexivity.
  - unfold bind. rewrite loop_body_run.
    destruct (label_of self raw) as [label|e]; [|reflexivity].
    rewrite IH.
    destruct (collect (label_of self) preds) as [labels|e]; [|reflexivity].
    rewrite <- app_assoc. reflexivity.
Qed.

Lemma extract_preds_run self preds :
  extract_preds preds self = (collect (label_of self) preds, self).
Proof.
  unfold _extract_preds. rewrite for_pred_in_run.
  destruct (collect _ preds); reflexivity.
Qed.

Lemma extract_preds_result self preds :
  result_of (extract_preds preds) self = collect (label_of self) preds.
Proof. unfold result_of. rewrite extract_preds_run. reflexivity. Qed.

Lemma extract_preds_state self preds :
  state_after (extract_preds preds) self = self.
Proof. unfold state_after. rewrite extract_preds_run. reflexivity. Qed.

End Loop.

(** ** [collect] *)

Section Collect.

Context {A B : Type} (f : A -> outcome B).

Lemma collect_Return (l : list A) (out : list B) :
  collect f l = Return out <-> Forall2 (fun x y => f x = Return y) l out.
Proof.
  revert out. induction l as [|x l IH]; intros out; simpl.
  - split.
    + intros [= <-]. constructor.
    + intros H. inversion H. reflexivity.
  - split.
    + destruct (f x) as [y|e] eqn:Hx; [|discriminate].
      destruct (collect f l) as [ys|e] eqn:Hl; [|discriminate].
      intros [= <-]. constructor; [exact Hx|]. apply IH. reflexivity.
    + intros H. inversion H as [|x' y l' ys Hx Hl]; subst.
      rewrite Hx. apply IH in Hl. rewrite Hl. reflexivity.
Qed.

Lemma collect_returns (l : list A) :
  (forall x, x ∈ l -> exists y, f x = Return y) ->
  exists out, collect f l = Return out.
Proof.
  induction l as [|x l IH]; intros Hall; simpl.
  - exists []. reflexivity.
  - destruct (Hall x) as [y Hy]; [apply list_elem_of_here|].
    destruct IH as [ys Hys].
    { intros x' Hx'. apply Hall. apply list_elem_of_further, Hx'. }
    exists (y :: ys). rewrite Hy, Hys. reflexivity.
Qed.

Lemma collect_length (l : list A) (out : list B) :
  collect f l = Return out -> length out = length l.
Proof.
  intros H. apply collect_Return in H.
  symmetry. eapply Forall2_length, H.
Qed.

Lemma collect_lookup (l : list A) (out : list B) (i : nat) (x : A) :
  collect f l = Return out -> l !! i = Some x ->
  exists y, out !! i = Some y /\ f x = Return y.
Proof.
  intros H Hi. apply collect_Return in H.
  destruct (Forall2_lookup_l _ _ _ _ _ H Hi) as (y & Hy & Hxy).
  exists y. split; assumption.
Qed.

End Collect.

(** ** One item *)

Section Item.

Context {BaseLLM : Type}.
Variable extract_from_tag : string -> string -> string -> outcome string.

Implicit Types (self : MarkerBasedPredictor BaseLLM).
Implicit Types (preds out : list string) (raw label : string).

Local Abbreviation extract_preds := (_extract_preds extract_from_tag).
Local Abbreviation label_of := (item_label extract_from_tag).

(** A label that was appended comes from an answer of the primitive and is
    the one the specification names. *)
Lemma label_of_specified self raw label :
  label_of self raw = Return label ->
  exists extracted,
    extract_from_tag raw (begin_marker self) (end_marker self)
    = Return extracted
    /\ specified_label (classes self) extracted label.
Proof.
  rewrite label_of_unfold.
  destruct (extract_from_tag raw _ _) as [extracted|e]; [|discriminate].
  rewrite normalize_result. intros H. exists extracted. split; [reflexivity|].
  unfold specified_label. destruct (classes self) as [cs|].
  - destruct (PyStr.contains cs (PyStr.lower extracted)) eqn:Hin.
    + injection H as <-. split; [reflexivity|].
      intros Hnot. apply contains_elem_of in Hin. contradiction.
    + apply not_contains_not_elem_of in Hin. split; [contradiction|].
      intros _. unfold getitem in H.
      destruct (cs !! 0) as [c|]; [|discriminate].
      injection H as <-. reflexivity.
  - injection H as <-. reflexivity.
Qed.

(** An iteration returns when the primitive does and the class list, if
    any, has a first element. *)
Lemma label_of_returns self raw extracted :
  extract_from_tag raw (begin_marker self) (end_marker self)
  = Return extracted ->
  classes self <> Some [] ->
  exists label, label_of self raw = Return label.
Proof.
  intros Hprim Hcs. rewrite label_of_unfold, Hprim, normalize_result.
  destruct (classes self) as [[|c cs]|]; [congruence| |eauto].
  destruct (PyStr.contains _ _); [eauto|]. exists c. reflexivity.
Qed.

(** In closed mode every appended label is one of the classes. *)
Lemma label_of_member self raw label cs :
  classes self = Some cs -> label_of self raw = Return label -> label ∈ cs.
Proof.
  intros Hcs H. apply label_of_specified in H as (extracted & _ & H).
  unfold specified_label in H. rewrite Hcs in H. destruct H as [Hin Hout].
  destruct (decide (PyStr.lower extracted ∈ cs)) as [Hmem|Hmem].
  - rewrite (Hin Hmem). exact Hmem.
  - eapply list_elem_of_lookup_2, Hout, Hmem.
Qed.

(** The call returns when the primitive does on every item and the class
    list, if any, has a first element. *)
Lemma extract_preds_returns self preds :
  total_on extract_from_tag self preds ->
  classes self <> Some [] ->
  exists out, result_of (extract_preds preds) self = Return out.
Proof.
  intros Htotal Hcs. rewrite extract_preds_result.
  apply collect_returns. intros raw Hraw.
  destruct (Htotal raw Hraw) as [extracted Hprim].
  eapply label_of_returns; eassumption.
Qed.

Lemma total_total_on self preds :
  total extract_from_tag -> total_on extract_from_tag self preds.
Proof. intros Htotal raw _. apply Htotal. Qed.

(** When the call returns, the primitive returned on every item. *)
Lemma returned_total_on self preds out :
  result_of (extract_preds preds) self = Return out ->
  total_on extract_from_tag self preds.
Proof.
  rewrite extract_preds_result. intros H raw Hraw.
  apply list_elem_of_lookup in Hraw as [i Hi].
  destruct (collect_lookup _ _ _ _ _ H Hi) as (label & _ & Hlabel).
  apply label_of_specified in Hlabel as (extracted & Hprim & _).
  exists extracted. exact Hprim.
Qed.

End Item.

(** ** The claims *)

Section Claims.

Context {BaseLLM : Type}.
Variable extract_from_tag : string -> string -> string -> outcome string.

Implicit Types (self : MarkerBasedPredictor BaseLLM).
Implicit Types (preds out : list string) (raw label : string).

Local Abbreviation extract_preds := (_extract_preds extract_from_tag).
Local Abbreviation label_of := (item_label extract_from_tag).

(** C1.  Whatever list [_extract_preds] returns, the label at each position
    is the one the specification names for the raw output at that position:
    with a class list, the lowercased extracted substring when it is in the
    list and the first class otherwise; without one, the lowercased
    extracted substring, the empty one included.  And the call does return
    such a list whenever the primitive returns on the items of the batch
    and the class list, if there is one, has a first element. *)
Theorem C1_labels_as_specified self preds :
  (forall out,
     result_of (extract_preds preds) self = Return out ->
     Forall2
       (fun raw label =>
          exists extracted,
            extract_from_tag raw (begin_marker self) (end_marker self)
            = Return extracted
            /\ specified_label (classes self) extracted label)
       preds out)
  /\ (total_on extract_from_tag self preds ->
      classes self <> Some [] ->
      exists out, result_of (extract_preds preds) self = Return out).
Proof.
  split.
  - intros out H. rewrite extract_preds_result in H.
    apply collect_Return in H.
    eapply Forall2_impl; [exact H|].
    intros raw label Hlabel. apply label_of_specified, Hlabel.
  - apply extract_preds_returns.
Qed.

(** C2.  With a non-empty class list [cs] set on the predictor, every label
    of a list returned by [_extract_preds] is a member of [cs]; and the
    call returns whenever the primitive returns on the items of the
    batch. *)
Theorem C2_closed_vocabulary self preds cs :
  classes self = Some cs ->
  cs <> [] ->
  (forall out,
     result_of (extract_preds preds) self = Return out ->
     Forall (fun label => label ∈ cs) out)
  /\ (total_on extract_from_tag self preds ->
      exists out, result_of (extract_preds preds) self = Return out).
Proof.
  intros Hcs Hne. split.
  - intros out H. rewrite extract_preds_result in H.
    apply collect_Return in H.
    apply Forall_forall. intros label Hlabel.
    apply list_elem_of_lookup in Hlabel as [i Hi].
    destruct (Forall2_lookup_r _ _ _ _ _ H Hi) as (raw & _ & Hraw).
    eapply label_of_member; eassumption.
  - intros Htotal. apply extract_preds_returns; [exact Htotal|].
    rewrite Hcs. intros [= ->]. apply Hne. reflexivity.
Qed.

(** C3.  A list returned by [_extract_preds] has the length of the batch,
    its label at position [i] is what one iteration yields for the raw
    output at position [i] alone, and so the same raw output gets the same
    label at any position of any batch; the call returns whenever the
    primitive returns on the items of the batch and the class list, if
    there is one, has a first element. *)
Theorem C3_positional self preds :
  (forall out,
     result_of (extract_preds preds) self = Return out ->
     length out = length preds
     /\ (forall i raw,
           preds !! i = Some raw ->
           exists label,
             out !! i = Some label /\ label_of self raw = Return label)
     /\ (forall preds' out' i j raw,
           result_of (extract_preds preds') self = Return out' ->
           preds !! i = Some raw ->
           preds' !! j = Some raw ->
           exists label, out !! i = Some label /\ out' !! j = Some label))
  /\ (total_on extract_from_tag self preds ->
      classes self <> Some [] ->
      exists out, result_of (extract_preds preds) self = Return out).
Proof.
  split; [|apply extract_preds_returns].
  intros out H. rewrite extract_preds_result in H. split; [|split].
  - eapply collect_length, H.
  - intros i raw Hi. eapply collect_lookup; eassumption.
  - intros preds' out' i j raw H' Hi Hj.
    rewrite extract_preds_result in H'.
    destruct (collect_lookup _ _ _ _ _ H Hi) as (label & Hout & Hlabel).
    destruct (collect_lookup _ _ _ _ _ H' Hj) as (label' & Hout' & Hlabel').
    exists label. split; [exact Hout|]. congruence.
Qed.

(** C4.  A class list with an entry that does not pass [islower] makes
    [__init__] raise the assertion error of line 50, whatever the markers
    and the configuration: no object is built, so nothing is left for
    prediction time. *)
Theorem C4_non_lowercase_rejected
    (m : BaseLLM) (cs : list string) (begin_m end_m : string)
    (config : option (ExperimentConfig BaseLLM)) (c : string) :
  c ∈ cs ->
  PyStr.islower c = false ->
  __init__ m (Some cs) begin_m end_m config
  = Raise (AssertionError "Class labels should be lowercase.").
Proof.
  intros Hin Hc. unfold __init__.
  rewrite (all_islower_false cs c Hin Hc). reflexivity.
Qed.

(** C6.  With a total primitive and a valid configuration (no class list,
    or a non-empty one whose entries all pass [islower]),
    [_extract_preds] returns a list for every batch; an item whose
    extraction came back empty gets the first class in closed mode and the
    empty string in open mode. *)
Theorem C6_never_raises self preds :
  total extract_from_tag ->
  validly_configured (classes self) ->
  exists out,
    result_of (extract_preds preds) self = Return out
    /\ forall i raw,
         preds !! i = Some raw ->
         extract_from_tag raw (begin_marker self) (end_marker self)
         = Return "" ->
         exists label,
           out !! i = Some label /\ degraded_label (classes self) label.
Proof.
  intros Htotal Hvalid.
  destruct (extract_preds_returns extract_from_tag self preds) as [out Hout].
  { apply total_total_on, Htotal. }
  { intros Hcs. rewrite Hcs in Hvalid. destruct Hvalid as [Hne _].
    apply Hne. reflexivity. }
  exists out. split; [exact Hout|].
  intros i raw Hi Hempty. rewrite extract_preds_result in Hout.
  destruct (collect_lookup _ _ _ _ _ Hout Hi) as (label & Hlabel & Hitem).
  exists label. split; [exact Hlabel|].
  apply label_of_specified in Hitem as (extracted & Hprim & Hspec).
  rewrite Hempty in Hprim. injection Hprim as <-.
  unfold specified_label in Hspec. unfold degraded_label.
  destruct (classes self) as [cs|]; [|exact Hspec].
  destruct Hspec as [_ Hfallback]. apply Hfallback.
  intros Hmem. destruct Hvalid as [_ Hlower].
  rewrite Forall_forall in Hlower. specialize (Hlower _ Hmem).
  discriminate Hlower.
Qed.

(** C7.  A string that is already lowercase (lowercasing leaves it as it
    is, which holds in particular when it passes [islower]) and is a member
    of the class list comes out of the normalization step unchanged, and
    the predictor is as before. *)
Theorem C7_normalize_idempotent self cs s :
  classes self = Some cs ->
  PyStr.lower s = s \/ PyStr.islower s = true ->
  s ∈ cs ->
  normalize s self = (Return s, self).
Proof.
  intros Hcs Hlower Hin.
  assert (Hfix : PyStr.lower s = s).
  { destruct Hlower as [H|H]; [exact H | apply islower_lower, H]. }
  rewrite normalize_run, normalize_result, Hcs, Hfix.
  apply contains_elem_of in Hin. rewrite Hin. reflexivity.
Qed.

(** C8.  [_extract_preds] leaves the object as it was, whether it returns
    or raises; so after any series of calls the object is the one the
    series started from, a call gives what it gives on that object (two
    calls on the same batch give the same result), and the attributes of an
    object built by [__init__] without a configuration are still the
    arguments [__init__] was given. *)
Theorem C8_no_side_effect self preds batches :
  state_after (extract_preds preds) self = self
  /\ after_calls extract_from_tag batches self = self
  /\ result_of (extract_preds preds)
               (after_calls extract_from_tag batches self)
     = result_of (extract_preds preds) self
  /\ result_of (extract_preds preds) (state_after (extract_preds preds) self)
     = result_of (extract_preds preds) self
  /\ (forall m cs begin_m end_m,
        __init__ m cs begin_m end_m None = Return self ->
        let self' := after_calls extract_from_tag batches self in
        classes self' = cs
        /\ begin_marker self' = begin_m
        /\ end_marker self' = end_m
        /\ extraction_description self' = extraction_description self).
Proof.
  assert (Hcalls : forall bs (s : MarkerBasedPredictor BaseLLM),
             after_calls extract_from_tag bs s = s).
  { induction bs as [|b bs IH]; intros s; simpl; [reflexivity|].
    rewrite extract_preds_state. apply IH. }
  rewrite Hcalls, extract_preds_state. do 4 (split; [reflexivity|]).
  intros m cs begin_m end_m Hinit. simpl.
  unfold __init__, BasePredictor__init__ in Hinit.
  destruct cs as [l|]; [destruct (all _); [|discriminate]|].
  all: injection Hinit as <-; repeat split.
Qed.

(** C9.  A class list with an entry that has no cased character makes
    [__init__] raise the assertion error although that entry has no
    uppercase letter; "123", "42" and the empty string are such entries;
    and every string that passes [islower] has no uppercase letter, so the
    check is strictly stricter than "no uppercase letter". *)
Theorem C9_uncased_rejected :
  (forall (m : BaseLLM) (cs : list string) (begin_m end_m : string)
          (config : option (ExperimentConfig BaseLLM)) (c : string),
      c ∈ cs ->
      PyStr.uncased c = true ->
      PyStr.no_upper c = true
      /\ PyStr.islower c = false
      /\ __init__ m (Some cs) begin_m end_m config
         = Raise (AssertionError "Class labels should be lowercase."))
  /\ PyStr.uncased "123" = true
  /\ PyStr.uncased "42" = true
  /\ PyStr.uncased "" = true
  /\ (forall s, PyStr.islower s = true -> PyStr.no_upper s = true).
Proof.
  split; [|repeat split; apply islower_no_upper].
  intros m cs begin_m end_m config c Hin Hc.
  pose proof (uncased_not_islower c Hc) as Hlow.
  split; [apply uncased_no_upper, Hc|]. split; [exact Hlow|].
  unfold __init__. rewrite (all_islower_false cs c Hin Hlow). reflexivity.
Qed.

(** C10, amended.  Membership is equality of strings, nothing is trimmed:
    when the lowercased extracted span differs from a configured class only
    by outer white space and is not itself equal to a configured class, the
    item gets the first class. *)
Theorem C10_whitespace_variant_falls_back
    self preds i raw extracted cs c :
  total_on extract_from_tag self preds ->
  preds !! i = Some raw ->
  classes self = Some cs ->
  extract_from_tag raw (begin_marker self) (end_marker self)
  = Return extracted ->
  c ∈ cs ->
  differs_by_outer_whitespace (PyStr.lower extracted) c ->
  PyStr.lower extracted ∉ cs ->
  falls_back_at extract_from_tag self preds i.
Proof.
  intros Htotal Hi Hcs Hprim Hc _ Hnot.
  destruct (extract_preds_returns extract_from_tag self preds Htotal)
    as [out Hout].
  { rewrite Hcs. intros [= ->]. inversion Hc. }
  pose proof Hout as Hcollect. rewrite extract_preds_result in Hcollect.
  destruct (collect_lookup _ _ _ _ _ Hcollect Hi) as (label & Hlabel & Hitem).
  apply label_of_specified in Hitem as (extracted' & Hprim' & Hspec).
  rewrite Hprim in Hprim'. injection Hprim' as <-.
  unfold specified_label in Hspec. rewrite Hcs in Hspec.
  destruct Hspec as [_ Hfallback].
  exists cs, label, out. repeat split; auto.
Qed.

End Claims.

(** ** The specified primitive *)

Lemma spec_primitive_total : total spec_primitive.
Proof. intros text b e. eexists. reflexivity. Qed.

(** Without the begin marker the specified primitive extracts nothing. *)
Lemma spec_primitive_marker_absent (text start_tag end_tag : string) :
  String.index 0 start_tag text = None ->
  spec_primitive text start_tag end_tag = Return "".
Proof. unfold spec_primitive, spec_extract_from_tag. intros ->. reflexivity. Qed.

(** ** The empty class list *)

(** [all([])] is [True]: the assertion lets the empty class list through. *)
Lemma init_empty_class_list {BaseLLM : Type} (m : BaseLLM) (begin_m end_m : string) :
  exists self,
    __init__ m (Some []) begin_m end_m None = Return self
    /\ classes self = Some []
    /\ begin_marker self = begin_m /\ end_marker self = end_m.
Proof. eexists. repeat split. Qed.

(** With the empty class list the first iteration that gets an answer from
    the primitive raises at [self.classes[0]]. *)
Lemma empty_class_list_raises {BaseLLM : Type}
    (primitive : string -> string -> string -> outcome string)
    (self : MarkerBasedPredictor BaseLLM) (raw extracted : string)
    (rest : list string) :
  classes self = Some [] ->
  primitive raw (begin_marker self) (end_marker self) = Return extracted ->
  result_of (_extract_preds primitive (raw :: rest)) self
  = Raise (IndexError "list index out of range").
Proof.
  intros Hcs Hprim. rewrite extract_preds_result. simpl.
  rewrite label_of_unfold, Hprim, normalize_result, Hcs. reflexivity.
Qed.

(** C5, on the code as it is.  [__init__] accepts the empty class list: it
    returns an object whose class list is empty, and no configuration error
    is raised.  On that object [_extract_preds] returns the empty list for
    the empty batch and raises [IndexError] for every other batch, here with
    the specified primitive. *)
Theorem C5_empty_class_list_accepted :
  __init__ tt (Some []) default_begin_marker default_end_marker None
  = Return no_class
  /\ result_of (_extract_preds spec_primitive []) no_class = Return []
  /\ forall raw rest,
       result_of (_extract_preds spec_primitive (raw :: rest)) no_class
       = Raise (IndexError "list index out of range").
Proof.
  split; [reflexivity|]. split; [reflexivity|].
  intros raw rest. eapply empty_class_list_raises; reflexivity.
Qed.

(** ** The claims at concrete inputs *)

Lemma C1_witness :
  total_on spec_primitive sentiment spec_batch
  /\ classes sentiment <> Some []
  /\ exists out,
       result_of (_extract_preds spec_primitive spec_batch) sentiment
       = Return out
       /\ Forall2
            (fun raw label =>
               exists extracted,
                 spec_primitive raw (begin_marker sentiment)
                                (end_marker sentiment) = Return extracted
                 /\ specified_label (classes sentiment) extracted label)
            spec_batch out.
Proof.
  assert (Htotal : total_on spec_primitive sentiment spec_batch).
  { intros raw _. eexists. reflexivity. }
  assert (Hcs : classes sentiment <> Some []) by discriminate.
  destruct (C1_labels_as_specified spec_primitive sentiment spec_batch)
    as [Hlabels Hreturns].
  destruct (Hreturns Htotal Hcs) as [out Hout].
  split; [exact Htotal|]. split; [exact Hcs|].
  exists out. split; [exact Hout | exact (Hlabels out Hout)].
Defined.

Lemma C2_witness :
  classes sentiment = Some sentiment_classes
  /\ sentiment_classes <> []
  /\ total_on spec_primitive sentiment spec_batch
  /\ exists out,
       result_of (_extract_preds spec_primitive spec_batch) sentiment
       = Return out
       /\ Forall (fun label => label ∈ sentiment_classes) out.
Proof.
  assert (Hcs : classes sentiment = Some sentiment_classes) by reflexivity.
  assert (Hne : sentiment_classes <> []) by discriminate.
  assert (Htotal : total_on spec_primitive sentiment spec_batch).
  { intros raw _. eexists. reflexivity. }
  destruct (C2_closed_vocabulary spec_primitive sentiment spec_batch
              sentiment_classes Hcs Hne) as [Hmember Hreturns].
  destruct (Hreturns Htotal) as [out Hout].
  split; [exact Hcs|]. split; [exact Hne|]. split; [exact Htotal|].
  exists out. split; [exact Hout | exact (Hmember out Hout)].
Defined.

Lemma C3_witness :
  result_of (_extract_preds spec_primitive spec_batch) sentiment
  = Return ["positive"; "negative"; "negative"]
  /\ length ["positive"; "negative"; "negative"] = length spec_batch
  /\ (forall preds' out' j,
        result_of (_extract_preds spec_primitive preds') sentiment
        = Return out' ->
        preds' !! j = Some "garbage" ->
        out' !! j = Some "negative").
Proof.
  assert (Hout : result_of (_extract_preds spec_primitive spec_batch) sentiment
                 = Return ["positive"; "negative"; "negative"])
    by reflexivity.
  destruct (C3_positional spec_primitive sentiment spec_batch) as [Hpos _].
  destruct (Hpos _ Hout) as (Hlen & _ & Hsame).
  split; [exact Hout|]. split; [exact Hlen|].
  intros preds' out' j Hout' Hj.
  destruct (Hsame preds' out' 1 j "garbage" Hout' eq_refl Hj)
    as (label & Hlabel & Hlabel').
  injection Hlabel as <-. exact Hlabel'.
Defined.

Lemma C4_witness :
  "Positive" ∈ ["Positive"; "negative"]
  /\ PyStr.islower "Positive" = false
  /\ __init__ tt (Some ["Positive"; "negative"])
       default_begin_marker default_end_marker None
     = Raise (AssertionError "Class labels should be lowercase.").
Proof.
  assert (Hin : "Positive" ∈ ["Positive"; "negative"])
    by apply list_elem_of_here.
  assert (Hc : PyStr.islower "Positive" = false) by reflexivity.
  split; [exact Hin|]. split; [exact Hc|].
  exact (C4_non_lowercase_rejected tt _ _ _ None "Positive" Hin Hc).
Defined.

Lemma C6_witness :
  total spec_primitive
  /\ validly_configured (classes sentiment)
  /\ exists out,
       result_of (_extract_preds spec_primitive spec_batch) sentiment
       = Return out
       /\ out !! 1 = Some "negative".
Proof.
  assert (Hvalid : validly_configured (classes sentiment)).
  { split; [discriminate|]. repeat constructor. }
  destruct (C6_never_raises spec_primitive sentiment spec_batch
              spec_primitive_total Hvalid) as (out & Hout & Hdegrade).
  split; [exact spec_primitive_total|]. split; [exact Hvalid|].
  exists out. split; [exact Hout|].
  destruct (Hdegrade 1 "garbage" eq_refl eq_refl) as (label & Hlabel & Hfirst).
  simpl in Hfirst. injection Hfirst as <-. exact Hlabel.
Defined.

Lemma C7_witness :
  classes sentiment = Some sentiment_classes
  /\ PyStr.lower "positive" = "positive"
  /\ "positive" ∈ sentiment_classes
  /\ normalize "positive" sentiment = (Return "positive", sentiment).
Proof.
  assert (Hin : "positive" ∈ sentiment_classes).
  { apply list_elem_of_further, list_elem_of_here. }
  split; [reflexivity|]. split; [reflexivity|]. split; [exact Hin|].
  exact (C7_normalize_idempotent sentiment sentiment_classes "positive"
           eq_refl (or_introl eq_refl) Hin).
Defined.

Lemma C8_witness :
  __init__ tt (Some sentiment_classes) default_begin_marker default_end_marker
    None = Return sentiment
  /\ classes (after_calls spec_primitive [spec_batch; []; spec_batch] sentiment)
     = Some sentiment_classes
  /\ begin_marker
       (after_calls spec_primitive [spec_batch; []; spec_batch] sentiment)
     = default_begin_marker
  /\ end_marker
       (after_calls spec_primitive [spec_batch; []; spec_batch] sentiment)
     = default_end_marker.
Proof.
  assert (Hinit : __init__ tt (Some sentiment_classes) default_begin_marker
                    default_end_marker None = Return sentiment)
    by reflexivity.
  destruct (C8_no_side_effect spec_primitive sentiment spec_batch
              [spec_batch; []; spec_batch]) as (_ & _ & _ & _ & Hfields).
  destruct (Hfields _ _ _ _ Hinit) as (Hcs & Hbegin & Hend & _).
  split; [exact Hinit|]. split; [exact Hcs|]. split; [exact Hbegin|].
  exact Hend.
Defined.

Lemma C9_witness :
  "123" ∈ ["negative"; "123"]
  /\ PyStr.uncased "123" = true
  /\ PyStr.no_upper "123" = true
  /\ PyStr.islower "123" = false
  /\ __init__ tt (Some ["negative"; "123"])
       default_begin_marker default_end_marker None
     = Raise (AssertionError "Class labels should be lowercase.").
Proof.
  assert (Hin : "123" ∈ ["negative"; "123"]).
  { apply list_elem_of_further, list_elem_of_here. }
  assert (Hc : PyStr.uncased "123" = true) by reflexivity.
  destruct (@C9_uncased_rejected unit) as [Hreject _].
  destruct (Hreject tt _ default_begin_marker default_end_marker None "123"
              Hin Hc) as (Hno & Hlow & Hraise).
  split; [exact Hin|]. split; [exact Hc|]. split; [exact Hno|].
  split; [exact Hlow | exact Hraise].
Defined.

Lemma C10_witness :
  total_on spec_primitive sentiment ["<final_answer> Positive </final_answer>"]
  /\ spec_primitive "<final_answer> Positive </final_answer>"
       (begin_marker sentiment) (end_marker sentiment) = Return " Positive "
  /\ "positive" ∈ sentiment_classes
  /\ differs_by_outer_whitespace (PyStr.lower " Positive ") "positive"
  /\ (PyStr.lower " Positive " ∉ sentiment_classes)
  /\ falls_back_at spec_primitive sentiment
       ["<final_answer> Positive </final_answer>"] 0.
Proof.
  assert (Htotal : total_on spec_primitive sentiment
                     ["<final_answer> Positive </final_answer>"]).
  { intros raw _. eexists. reflexivity. }
  assert (Hprim : spec_primitive "<final_answer> Positive </final_answer>"
                    (begin_marker sentiment) (end_marker sentiment)
                  = Return " Positive ") by reflexivity.
  assert (Hin : "positive" ∈ sentiment_classes).
  { apply list_elem_of_further, list_elem_of_here. }
  assert (Hdiff : differs_by_outer_whitespace (PyStr.lower " Positive ")
                    "positive").
  { split; [discriminate | reflexivity]. }
  assert (Hnot : PyStr.lower " Positive " ∉ sentiment_classes).
  { apply not_contains_not_elem_of. reflexivity. }
  split; [exact Htotal|]. split; [exact Hprim|]. split; [exact Hin|].
  split; [exact Hdiff|]. split; [exact Hnot|].
  exact (C10_whitespace_variant_falls_back spec_primitive sentiment
           ["<final_answer> Positive </final_answer>"] 0
           "<final_answer> Positive </final_answer>" " Positive "
           sentiment_classes "positive"
           Htotal eq_refl eq_refl Hprim Hin Hdiff Hnot).
Defined.

(** C10 as stated fails: with the classes "negative", " positive " and
    "positive", which all pass [islower], the span " Positive " lowercases to
    " positive ", which differs from the class "positive" only by outer white
    space; it is itself a class, so it is kept and the first class
    "negative" is not substituted. *)
Lemma C10_counterexample :
  ~ whitespace_variant_always_falls_back spec_primitive padded
      ["<final_answer> Positive </final_answer>"] 0.
Proof.
  intros Hclaim.
  destruct (Hclaim "<final_answer> Positive </final_answer>" " Positive "
              padded_classes "positive")
    as (cs & fallback & out & Hcs & Hfirst & Hout & Hlabel).
  - intros raw _. eexists. reflexivity.
  - reflexivity.
  - reflexivity.
  - reflexivity.
  - do 2 apply list_elem_of_further. apply list_elem_of_here.
  - split; [discriminate | reflexivity].
  - injection Hcs as <-. injection Hfirst as <-.
    vm_compute in Hout. injection Hout as <-. discriminate Hlabel.
Qed.

Example init_padded_classes :
  __init__ tt (Some padded_classes) default_begin_marker default_end_marker
    None = Return padded.
Proof. reflexivity. Qed.

Example padded_keeps_variant :
  result_of (_extract_preds spec_primitive
               ["<final_answer> Positive </final_answer>"]) padded
  = Return [" positive "].
Proof. reflexivity. Qed.

(** * Further properties of the code *)

(** ** More on [islower] and [collect] *)

Section MoreFacts.

Import PyStr.

(** The scan answers [True] exactly when no character is uppercase and a
    cased character was seen before or is met in the string. *)
Lemma islower_scan_spec (s : string) (seen : bool) :
  islower_scan s seen = true
  <-> no_upper s = true /\ (seen = true \/ uncased s = false).
Proof.
  revert seen. induction s as [|ch s IH]; intros seen; simpl.
  - split; [intros ->; split; [reflexivity | left; reflexivity]|].
    intros [_ [H|H]]; [exact H | discriminate].
  - unfold cased, Py_UNICODE_ISTITLE. rewrite !orb_false_r.
    destruct (Py_UNICODE_ISUPPER ch) eqn:Hu; simpl.
    + split; [discriminate | intros [H _]; discriminate].
    + rewrite IH. destruct (Py_UNICODE_ISLOWER ch); simpl.
      * rewrite orb_true_r. split; intros [H _]; (split; [exact H|]);
          [right | left]; reflexivity.
      * rewrite orb_false_r. reflexivity.
Qed.

Lemma islower_spec (s : string) :
  islower s = true <-> no_upper s = true /\ uncased s = false.
Proof.
  unfold islower. rewrite islower_scan_spec. split.
  - intros [H [H'|H']]; [discriminate | split; assumption].
  - intros [H H']. split; [exact H | right; exact H'].
Qed.

Lemma islower_not_empty (s : string) : islower s = true -> s <> "".
Proof. intros H ->. discriminate H. Qed.

Lemma collect_app {A B : Type} (f : A -> outcome B) (l1 l2 : list A) :
  collect f (l1 ++ l2) =
  match collect f l1 with
  | Return out1 =>
      match collect f l2 with
      | Return out2 => Return (out1 ++ out2)%list
      | Raise e => Raise e
      end
  | Raise e => Raise e
  end.
Proof.
  induction l1 as [|x l1 IH]; simpl.
  - destruct (collect f l2); reflexivity.
  - destruct (f x) as [y|e]; [|reflexivity]. rewrite IH.
    destruct (collect f l1) as [out1|e]; [|reflexivity].
    destruct (collect f l2); reflexivity.
Qed.

Lemma collect_ext {A B : Type} (f g : A -> outcome B) (l : list A) :
  (forall x, x ∈ l -> f x = g x) -> collect f l = collect g l.
Proof.
  induction l as [|x l IH]; intros Heq; simpl; [reflexivity|].
  rewrite (Heq x), IH; [reflexivity| |apply list_elem_of_here].
  intros x' Hx'. apply Heq, list_elem_of_further, Hx'.
Qed.

End MoreFacts.

(** ** Construction *)

Section Construction.

Context {BaseLLM : Type}.

(** X1.  Without a configuration, [__init__] returns an object for a class
    list exactly when every entry passes [islower] (so also for the empty
    list), and raises the assertion error otherwise; without a class list it
    always returns.  The object returned carries the arguments. *)
Theorem X1_init_returns_iff
    (m : BaseLLM) (cs : list string) (begin_m end_m : string) :
  ((exists self, __init__ m (Some cs) begin_m end_m None = Return self)
   <-> Forall (fun c => PyStr.islower c = true) cs)
  /\ ((forall self, __init__ m (Some cs) begin_m end_m None <> Return self)
      <-> __init__ m (Some cs) begin_m end_m None
          = Raise (AssertionError "Class labels should be lowercase."))
  /\ (forall classes_arg self,
        __init__ m classes_arg begin_m end_m None = Return self ->
        llm self = m /\ classes self = classes_arg
        /\ begin_marker self = begin_m /\ end_marker self = end_m)
  /\ (exists self, __init__ m None begin_m end_m None = Return self).
Proof.
  unfold __init__, BasePredictor__init__. repeat split.
  - intros [self H]. apply all_islower_Forall.
    destruct (all _); [reflexivity | discriminate].
  - intros H. apply all_islower_Forall in H. rewrite H. eexists. reflexivity.
  - intros H. destruct (all _); [|reflexivity]. exfalso. eapply H. reflexivity.
  - intros H self. rewrite H. discriminate.
  - destruct classes_arg as [l|]; [destruct (all _); [|discriminate]|];
      injection H as <-; reflexivity.
  - destruct classes_arg as [l|]; [destruct (all _); [|discriminate]|];
      injection H as <-; reflexivity.
  - destruct classes_arg as [l|]; [destruct (all _); [|discriminate]|];
      injection H as <-; reflexivity.
  - destruct classes_arg as [l|]; [destruct (all _); [|discriminate]|];
      injection H as <-; reflexivity.
  - eexists. reflexivity.
Qed.

(** X2.  The entries the assertion of [__init__] lets through are exactly the
    strings with no uppercase character and at least one cased character:
    digits, punctuation and white space are allowed beside lowercase
    letters. *)
Theorem X2_accepted_entries
    (m : BaseLLM) (cs : list string) (begin_m end_m : string) :
  (exists self, __init__ m (Some cs) begin_m end_m None = Return self)
  <-> Forall (fun c => PyStr.no_upper c = true /\ PyStr.uncased c = false) cs.
Proof.
  unfold __init__, BasePredictor__init__. split.
  - intros [self H].
    assert (Hall : all (map PyStr.islower cs) = true)
      by (destruct (all _); [reflexivity | discriminate]).
    apply all_islower_Forall in Hall.
    eapply Forall_impl; [exact Hall|].
    intros c Hc. apply islower_spec, Hc.
  - intros H.
    assert (Hall : Forall (fun c => PyStr.islower c = true) cs).
    { eapply Forall_impl; [exact H|]. intros c Hc. apply islower_spec, Hc. }
    apply all_islower_Forall in Hall. rewrite Hall. eexists. reflexivity.
Qed.

End Construction.

(** ** Extraction *)

Section Extraction.

Context {BaseLLM : Type}.
Variable extract_from_tag : string -> string -> string -> outcome string.

Implicit Types (self : MarkerBasedPredictor BaseLLM).
Implicit Types (preds out : list string) (raw label : string).

Local Abbreviation extract_preds := (_extract_preds extract_from_tag).
Local Abbreviation label_of := (item_label extract_from_tag).

(** X3.  The loop stops at the first item on which the primitive raises:
    when the primitive returns on the items before it and the class list, if
    any, has a first element, [_extract_preds] raises that very exception,
    whatever follows in the batch; no label is returned and the object is
    unchanged. *)
Theorem X3_first_exception_propagates self before raw after e :
  total_on extract_from_tag self before ->
  classes self <> Some [] ->
  extract_from_tag raw (begin_marker self) (end_marker self) = Raise e ->
  extract_preds (before ++ raw :: after) self = (Raise e, self).
Proof.
  intros Htotal Hcs Hraise.
  rewrite extract_preds_run, collect_app.
  destruct (extract_preds_returns _ self before Htotal Hcs) as [out Hout].
  rewrite extract_preds_result in Hout. rewrite Hout. simpl.
  rewrite label_of_unfold, Hraise. reflexivity.
Qed.

(** X4.  Batches compose: the result for [preds1 ++ preds2] is the result for
    [preds1] followed by the result for [preds2], and it is the first
    exception met when one of the two raises. *)
Theorem X4_batches_compose self preds1 preds2 :
  result_of (extract_preds (preds1 ++ preds2)) self =
  match result_of (extract_preds preds1) self with
  | Return out1 =>
      match result_of (extract_preds preds2) self with
      | Return out2 => Return (out1 ++ out2)%list
      | Raise e => Raise e
      end
  | Raise e => Raise e
  end.
Proof. rewrite !extract_preds_result. apply collect_app. Qed.

(** X5.  With no class list, or one that has a first element, the primitive
    is the only source of exceptions: [_extract_preds] returns a list exactly
    when the primitive returns on every item of the batch. *)
Theorem X5_returns_iff_primitive_returns self preds :
  classes self <> Some [] ->
  (exists out, result_of (extract_preds preds) self = Return out)
  <-> total_on extract_from_tag self preds.
Proof.
  intros Hcs. split.
  - intros [out Hout]. eapply returned_total_on, Hout.
  - intros Htotal. apply extract_preds_returns; assumption.
Qed.

(** X6.  With the empty class list [_extract_preds] returns for the empty
    batch only: it never returns for a batch with an item, and raises
    [IndexError] as soon as the primitive answers the first item. *)
Theorem X6_empty_class_list self preds :
  classes self = Some [] ->
  ((exists out, result_of (extract_preds preds) self = Return out)
   <-> preds = [])
  /\ (forall raw rest extracted,
        preds = raw :: rest ->
        extract_from_tag raw (begin_marker self) (end_marker self)
        = Return extracted ->
        result_of (extract_preds preds) self
        = Raise (IndexError "list index out of range")).
Proof.
  intros Hcs. split.
  - split.
    + intros [out Hout]. destruct preds as [|raw rest]; [reflexivity|].
      exfalso. rewrite extract_preds_result in Hout. simpl in Hout.
      rewrite label_of_unfold in Hout.
      destruct (extract_from_tag raw _ _) as [extracted|e]; [|discriminate].
      rewrite normalize_result, Hcs in Hout. discriminate Hout.
    + intros ->. exists []. reflexivity.
  - intros raw rest extracted -> Hprim.
    eapply empty_class_list_raises; eassumption.
Qed.


(** X8.  In closed mode with a class list whose entries all pass [islower]
    (what [__init__] asserts), every returned label passes [islower]: it is
    never empty and has no uppercase character. *)
Theorem X8_closed_mode_labels_islower self preds out cs :
  classes self = Some cs ->
  Forall (fun c => PyStr.islower c = true) cs ->
  result_of (extract_preds preds) self = Return out ->
  Forall (fun label => PyStr.islower label = true /\ label <> ""
                       /\ PyStr.no_upper label = true) out.
Proof.
  intros Hcs Hlower Hout. rewrite extract_preds_result in Hout.
  apply collect_Return in Hout.
  apply Forall_forall. intros label Hlabel.
  apply list_elem_of_lookup in Hlabel as [i Hi].
  destruct (Forall2_lookup_r _ _ _ _ _ Hout Hi) as (raw & _ & Hraw).
  pose proof (label_of_member _ self raw label cs Hcs Hraw) as Hmem.
  rewrite Forall_forall in Hlower. specialize (Hlower _ Hmem).
  split; [exact Hlower|].
  split; [apply islower_not_empty, Hlower | apply islower_no_upper, Hlower].
Qed.

(** X9.  Labels do not depend on the case of the extracted text: two items
    whose answers from the primitive are equal once lowercased get the same
    label. *)
Theorem X9_case_insensitive self preds out i j raw1 raw2 extracted1 extracted2 :
  result_of (extract_preds preds) self = Return out ->
  preds !! i = Some raw1 ->
  preds !! j = Some raw2 ->
  extract_from_tag raw1 (begin_marker self) (end_marker self)
  = Return extracted1 ->
  extract_from_tag raw2 (begin_marker self) (end_marker self)
  = Return extracted2 ->
  PyStr.lower extracted1 = PyStr.lower extracted2 ->
  exists label, out !! i = Some label /\ out !! j = Some label.
Proof.
  intros Hout Hi Hj Hprim1 Hprim2 Hsame.
  rewrite extract_preds_result in Hout.
  destruct (collect_lookup _ _ _ _ _ Hout Hi) as (label1 & Hlabel1 & Hitem1).
  destruct (collect_lookup _ _ _ _ _ Hout Hj) as (label2 & Hlabel2 & Hitem2).
  exists label1. split; [exact Hlabel1|]. rewrite Hlabel2. f_equal.
  rewrite label_of_unfold, Hprim1, normalize_result in Hitem1.
  rewrite label_of_unfold, Hprim2, normalize_result, <- Hsame in Hitem2.
  congruence.
Qed.


(** X11.  [_extract_preds] uses the class list and the two markers of the
    object and nothing else of it, and it calls the primitive on the items
    of the batch with those two markers only: objects that agree on the
    three attributes, with primitives that agree on those calls, give the
    same result. *)
Theorem X11_depends_on_classes_and_markers
    (extract_from_tag' : string -> string -> string -> outcome string)
    self self' preds :
  classes self = classes self' ->
  begin_marker self = begin_marker self' ->
  end_marker self = end_marker self' ->
  (forall raw, raw ∈ preds ->
     extract_from_tag raw (begin_marker self) (end_marker self)
     = extract_from_tag' raw (begin_marker self) (end_marker self)) ->
  result_of (extract_preds preds) self
  = result_of (_extract_preds extract_from_tag' preds) self'.
Proof.
  intros Hcs Hbegin Hend Hagree. rewrite !extract_preds_result.
  apply collect_ext. intros raw Hraw.
  rewrite !label_of_unfold, <- Hbegin, <- Hend, <- (Hagree raw Hraw).
  destruct (extract_from_tag raw _ _) as [extracted|e]; [|reflexivity].
  rewrite !normalize_result, Hcs. reflexivity.
Qed.

(** X12.  Normalizing a label again gives the same label: in open mode
    always, in closed mode when lowercasing leaves every class as it is
    (which holds for the class lists [__init__] accepts). *)
Theorem X12_normalize_twice self s label :
  (forall cs, classes self = Some cs ->
              Forall (fun c => PyStr.lower c = c) cs) ->
  result_of (normalize s) self = Return label ->
  result_of (normalize label) self = Return label.
Proof.
  intros Hfixed. rewrite !normalize_result.
  destruct (classes self) as [cs|] eqn:Hcs.
  - specialize (Hfixed cs eq_refl). rewrite Forall_forall in Hfixed.
    assert (Hmember : label ∈ cs -> PyStr.lower label = label
            -> (if PyStr.contains cs (PyStr.lower label)
                then Return (PyStr.lower label) else getitem cs 0)
               = Return label).
    { intros Hmem Hfix. rewrite Hfix.
      apply contains_elem_of in Hmem. rewrite Hmem. reflexivity. }
    destruct (PyStr.contains cs (PyStr.lower s)) eqn:Hin.
    + intros [= <-]. apply contains_elem_of in Hin.
      apply Hmember; [exact Hin | apply lower_idempotent].
    + intros Hget.
      assert (Hfirst : cs !! 0 = Some label).
      { unfold getitem in Hget.
        destruct (cs !! 0) as [c|]; [|discriminate].
        injection Hget as ->. reflexivity. }
      apply list_elem_of_lookup_2 in Hfirst.
      apply Hmember; [exact Hfirst | apply Hfixed, Hfirst].
  - intros [= <-]. rewrite lower_idempotent. reflexivity.
Qed.

End Extraction.

(** ** The further properties at concrete inputs *)

Lemma X1_witness :
  __init__ tt (Some sentiment_classes) default_begin_marker default_end_marker
    None = Return sentiment
  /\ llm sentiment = tt
  /\ classes sentiment = Some sentiment_classes
  /\ begin_marker sentiment = default_begin_marker
  /\ end_marker sentiment = default_end_marker.
Proof.
  assert (Hinit : __init__ tt (Some sentiment_classes) default_begin_marker
                    default_end_marker None = Return sentiment)
    by reflexivity.
  destruct (X1_init_returns_iff tt sentiment_classes default_begin_marker
              default_end_marker) as (_ & _ & Hfields & _).
  split; [exact Hinit | exact (Hfields _ _ Hinit)].
Defined.

Lemma X3_witness :
  total_on strict_primitive sentiment ["<final_answer>Positive</final_answer>"]
  /\ classes sentiment <> Some []
  /\ strict_primitive "garbage" (begin_marker sentiment) (end_marker sentiment)
     = Raise (Exception "ValueError" "marker not found")
  /\ _extract_preds strict_primitive
       (["<final_answer>Positive</final_answer>"]
        ++ "garbage" :: ["<final_answer>NEGATIVE</final_answer>"])
       sentiment
     = (Raise (Exception "ValueError" "marker not found"), sentiment).
Proof.
  assert (Htotal : total_on strict_primitive sentiment
                     ["<final_answer>Positive</final_answer>"]).
  { intros raw Hraw. apply list_elem_of_singleton in Hraw. subst raw.
    eexists. reflexivity. }
  assert (Hcs : classes sentiment <> Some []) by discriminate.
  split; [exact Htotal|]. split; [exact Hcs|]. split; [reflexivity|].
  exact (X3_first_exception_propagates strict_primitive sentiment _ "garbage"
           _ _ Htotal Hcs eq_refl).
Defined.

Lemma X5_witness :
  classes sentiment <> Some []
  /\ total_on spec_primitive sentiment spec_batch
  /\ exists out,
       result_of (_extract_preds spec_primitive spec_batch) sentiment
       = Return out.
Proof.
  assert (Hcs : classes sentiment <> Some []) by discriminate.
  assert (Htotal : total_on spec_primitive sentiment spec_batch).
  { intros raw _. eexists. reflexivity. }
  split; [exact Hcs|]. split; [exact Htotal|].
  exact (proj2 (X5_returns_iff_primitive_returns spec_primitive sentiment
                  spec_batch Hcs) Htotal).
Defined.

Lemma X6_witness :
  classes no_class = Some []
  /\ spec_primitive "garbage" (begin_marker no_class) (end_marker no_class)
     = Return ""
  /\ result_of (_extract_preds spec_primitive ["garbage"; "more"]) no_class
     = Raise (IndexError "list index out of range").
Proof.
  assert (Hcs : classes no_class = Some []) by reflexivity.
  destruct (X6_empty_class_list spec_primitive no_class ["garbage"; "more"]
              Hcs) as [_ Hraises].
  split; [exact Hcs|]. split; [reflexivity|].
  exact (Hraises "garbage" ["more"] "" eq_refl eq_refl).
Defined.


Lemma X8_witness :
  classes sentiment = Some sentiment_classes
  /\ Forall (fun c => PyStr.islower c = true) sentiment_classes
  /\ result_of (_extract_preds spec_primitive spec_batch) sentiment
     = Return ["positive"; "negative"; "negative"]
  /\ Forall (fun label => PyStr.islower label = true /\ label <> ""
                          /\ PyStr.no_upper label = true)
            ["positive"; "negative"; "negative"].
Proof.
  assert (Hlower : Forall (fun c => PyStr.islower c = true) sentiment_classes)
    by (repeat constructor).
  split; [reflexivity|]. split; [exact Hlower|]. split; [reflexivity|].
  exact (X8_closed_mode_labels_islower spec_primitive sentiment spec_batch
           _ sentiment_classes eq_refl Hlower eq_refl).
Defined.

Lemma X9_witness :
  result_of (_extract_preds spec_primitive case_batch) sentiment
  = Return ["positive"; "positive"]
  /\ PyStr.lower "Positive" = PyStr.lower "POSITIVE"
  /\ exists label,
       ["positive"; "positive"] !! 0 = Some label
       /\ ["positive"; "positive"] !! 1 = Some label.
Proof.
  split; [reflexivity|]. split; [reflexivity|].
  exact (X9_case_insensitive spec_primitive sentiment case_batch
           ["positive"; "positive"] 0 1
           "<final_answer>Positive</final_answer>"
           "<final_answer>POSITIVE</final_answer>" "Positive" "POSITIVE"
           eq_refl eq_refl eq_refl eq_refl eq_refl eq_refl).
Defined.


Lemma X11_witness :
  classes sentiment = classes sentiment_undescribed
  /\ begin_marker sentiment = begin_marker sentiment_undescribed
  /\ end_marker sentiment = end_marker sentiment_undescribed
  /\ result_of (_extract_preds spec_primitive
                  ["<final_answer>Positive</final_answer>"]) sentiment
     = result_of (_extract_preds strict_primitive
                    ["<final_answer>Positive</final_answer>"])
                 sentiment_undescribed.
Proof.
  assert (Hagree : forall raw,
             raw ∈ ["<final_answer>Positive</final_answer>"] ->
             spec_primitive raw (begin_marker sentiment) (end_marker sentiment)
             = strict_primitive raw (begin_marker sentiment)
                                (end_marker sentiment)).
  { intros raw Hraw. apply list_elem_of_singleton in Hraw. subst raw.
    reflexivity. }
  split; [reflexivity|]. split; [reflexivity|]. split; [reflexivity|].
  exact (X11_depends_on_classes_and_markers spec_primitive strict_primitive
           sentiment sentiment_undescribed _ eq_refl eq_refl eq_refl Hagree).
Defined.

Lemma X12_witness :
  (forall cs, classes sentiment = Some cs ->
              Forall (fun c => PyStr.lower c = c) cs)
  /\ result_of (normalize "Maybe") sentiment = Return "negative"
  /\ result_of (normalize "negative") sentiment = Return "negative".
Proof.
  assert (Hfixed : forall cs, classes sentiment = Some cs ->
                              Forall (fun c => PyStr.lower c = c) cs).
  { intros cs [= <-]. repeat constructor. }
  split; [exact Hfixed|]. split; [reflexivity|].
  exact (X12_normalize_twice sentiment "Maybe" "negative" Hfixed eq_refl).
Defined.
